(** * Email Analyser front end: route guard, OAuth2 login redirect, dashboard

    A shallow embedding of [frontend/src/App.js] (the [App] router with its
    [ProtectedRoute] and [Login] components) and of the [Dashboard] component
    that the same file carries, together with the properties the
    specification states about them.

    Conventions.
    - JavaScript numbers are IEEE-754 binary64 values.  Scores and the
      average response time are kept as [spec_float] (the Standard
      Library's axiom-free model of binary floats); comparison is
      [SFltb]/[SFcompare].  The counts of the metrics object are integer
      literals and are kept as [Z].
    - JavaScript objects used as dictionaries ([categories],
      [sentiment_distribution], [priority_distribution], [process.env])
      are [gmap string _]; reading a missing property is [None]
      (JavaScript's [undefined]).
    - React state is a record; a [useState] setter replaces one field. *)

From Stdlib Require Import ZArith SpecFloat.
From stdpp Require Import gmap strings list fin_maps.

Local Open Scope string_scope.

(** ** JavaScript values used by the components *)

Module Js.

(** A JavaScript number. *)
Definition number : Type := spec_float.

(** [a > b] on numbers: false as soon as one side is NaN. *)
Definition gt (a b : number) : bool := SFltb b a.

(** The binary64 values denoted by the decimal literals of the source:
    the literal is rounded to the nearest double, mantissa times a power
    of two. *)
Definition lit_0_7 : number := S754_finite false 6305039478318694 (-53).
Definition lit_0_8 : number := S754_finite false 7205759403792794 (-53).
Definition lit_0_9 : number := S754_finite false 8106479329266893 (-53).
Definition lit_0_5 : number := S754_finite false 4503599627370496 (-53).
Definition lit_2_5 : number := S754_finite false 5629499534213120 (-51).

(** A binary64 value in canonical form (53 bits of precision, exponents
    up to 1024). *)
Definition is_binary64 (x : number) : bool := valid_binary 53 1024 x.

Definition is_finite (x : number) : bool :=
  match x with
  | S754_zero _ | S754_finite _ _ _ => true
  | S754_infinity _ | S754_nan => false
  end.

(** The value of a finite number in units of [2^-1074], the spacing of
    the smallest binary64 values: every finite binary64 is an integer
    number of such units. *)
Definition scaled (x : number) : Z :=
  match x with
  | S754_finite s m e => ((if s then -1 else 1) * Z.pos m * 2 ^ (e + 1074))%Z
  | _ => 0%Z
  end.

(** The number 1 in the same units. *)
Definition scaled_one : Z := (2 ^ 1074)%Z.

(** [${e}] inside a template literal, for an expression that is a string
    or [undefined]. *)
Definition interpolate (v : option string) : string :=
  match v with
  | Some s => s
  | None => "undefined"
  end.

End Js.

(** ** Session state and the authentication context *)

Module AuthContext.

(** Modelled from the spec: [contexts/AuthContext], which [App.js]
    imports, is not part of the sources.  The session it keeps is the
    SessionState of the specification: a status, and an access token and
    an expiry time that may be absent. *)
Inductive Status : Type := anonymous | pending | authenticated.

#[global] Instance Status_eq_dec : EqDecision Status.
Proof. solve_decision. Defined.

Record SessionState : Type := mkSession {
  status : Status;
  accessToken : option string;
  expiresAt : option Z
}.

(** What [useAuth()] hands to a component.  [App.js] reads the field
    [isAuthenticated] in [ProtectedRoute]; [Login] destructures [login]
    and never calls it, so the record carries the flag alone. *)
Record Value : Type := mkValue {
  isAuthenticated : bool
}.

(** Modelled from the spec: [contexts/AuthContext] ([AuthProvider] and
    [useAuth]) is imported by [App.js] and is not part of the sources.  The
    specification has the Auth Flow Controller expose [isAuthenticated] and
    fixes the guard to admit exactly when [session.status == authenticated];
    hence the flag is that test on the status of the session handed in.
    This is the flag of a session whose status is up to date; what the
    passing of time does to the status is [effective_status] below, and
    the flag at a given time is [useAuthAt]. *)
Definition useAuth (s : SessionState) : Value :=
  {| isAuthenticated := bool_decide (status s = authenticated) |}.

(** Modelled from the spec: the expiry test [now ≥ expiresAt] of the
    specification's token lifecycle; no source computes it.  A session
    without [expiresAt] never expires. *)
Definition expired (now : Z) (s : SessionState) : bool :=
  match expiresAt s with
  | Some t => (t <=? now)%Z
  | None => false
  end.

(** Modelled from the spec: the token-expiry rule of the Auth Flow
    Controller; no source implements it.  While a session is
    [authenticated], once [now ≥ expiresAt] every protected operation
    treats it as [anonymous]; the other statuses are not touched by
    time. *)
Definition effective_status (now : Z) (s : SessionState) : Status :=
  match status s with
  | authenticated => if expired now s then anonymous else authenticated
  | anonymous => anonymous
  | pending => pending
  end.

(** Modelled from the spec: what [useAuth()] hands out at time [now],
    the flag of the session as the expiry rule treats it. *)
Definition useAuthAt (now : Z) (s : SessionState) : Value :=
  {| isAuthenticated := bool_decide (effective_status now s = authenticated) |}.

End AuthContext.

(** ** App.js: router, route guard, login redirect *)

Module App.

Import AuthContext.

Inductive View : Type := LoginView | DashboardView.

(** What a route element evaluates to: a view, or [<Navigate to=... />]. *)
Inductive Element : Type :=
| Render (v : View)
| Navigate (to : string).

(** [const ProtectedRoute = ({ children }) => { const { isAuthenticated } =
    useAuth(); return isAuthenticated ? children : <Navigate to="/login" />; }] *)
Definition ProtectedRoute (auth : Value) (children : Element) : Element :=
  if isAuthenticated auth then children else Navigate "/login".

(** The [<Routes>] table of [App], read at the paths as the source
    spells them; [None] for every other string.  How the router matches
    other spellings of these paths (letter case, trailing slashes) is
    [Router.matched_route]. *)
Definition Routes (auth : Value) (path : string) : option Element :=
  if String.eqb path "/login" then Some (Render LoginView)
  else if String.eqb path "/dashboard" then
    Some (ProtectedRoute auth (Render DashboardView))
  else if String.eqb path "/" then Some (Navigate "/dashboard")
  else None.

(** Following [<Navigate>] elements until a view renders.  Each redirect
    costs one unit of fuel. *)
Fixpoint navigate (fuel : nat) (auth : Value) (path : string)
  : option (string * View) :=
  match Routes auth path with
  | None => None
  | Some (Render v) => Some (path, v)
  | Some (Navigate to) =>
      match fuel with
      | O => None
      | S fuel' => navigate fuel' auth to
      end
  end.

(** The route guard as a predicate on the session: does the protected
    route hand out its children (the dashboard)? *)
Definition canAccess (s : SessionState) : bool :=
  match ProtectedRoute (useAuth s) (Render DashboardView) with
  | Render DashboardView => true
  | _ => false
  end.

(** The route guard at time [now]: the same [ProtectedRoute], given the
    flag of the session as the expiry rule treats it. *)
Definition canAccessAt (now : Z) (s : SessionState) : bool :=
  match ProtectedRoute (useAuthAt now s) (Render DashboardView) with
  | Render DashboardView => true
  | _ => false
  end.

(** The part of [window] the login handler writes. *)
Record Window : Type := mkWindow {
  location_href : string
}.

(** [handleMicrosoftLogin]: assigns the template literal to
    [window.location.href].  [env] is [process.env] as seen by the bundle;
    the three values are spliced in as they are (no URL encoding). *)
Definition handleMicrosoftLogin (env : gmap string string) (w : Window) : Window :=
  {| location_href :=
       "https://login.microsoftonline.com/"
       +:+ Js.interpolate (env !! "REACT_APP_TENANT_ID")
       +:+ "/oauth2/v2.0/authorize?client_id="
       +:+ Js.interpolate (env !! "REACT_APP_CLIENT_ID")
       +:+ "&response_type=code&redirect_uri="
       +:+ Js.interpolate (env !! "REACT_APP_REDIRECT_URI")
       +:+ "&scope=Mail.Read Mail.ReadWrite User.Read" |}.

End App.

(** ** Route matching as the router does it *)

Module Router.

Import AuthContext App.

(** react-router compiles a static [<Route path>] to the regular
    expression [^path\/*$] with the flag [i] (a trailing slash of the
    path is dropped first, so [/] becomes [^/\/*$]): the ASCII letters of
    the pathname compare without case and any number of slashes may
    follow.  The pathname is the one the router matches against. *)
Definition lower (c : Ascii.ascii) : Ascii.ascii :=
  let n := Ascii.nat_of_ascii c in
  if (65 <=? n)%nat && (n <=? 90)%nat then Ascii.ascii_of_nat (n + 32) else c.

Fixpoint lower_string (s : string) : string :=
  match s with
  | EmptyString => EmptyString
  | String c s' => String (lower c) (lower_string s')
  end.

(** The character [/] (code 47). *)
Definition slash : Ascii.ascii := Eval cbv in Ascii.ascii_of_nat 47.

(** The string without the slashes at its end. *)
Fixpoint drop_trailing_slashes (s : string) : string :=
  match s with
  | EmptyString => EmptyString
  | String c s' =>
      match drop_trailing_slashes s' with
      | EmptyString => if Ascii.eqb c slash then EmptyString else String c EmptyString
      | rest => String c rest
      end
  end.

Definition matches (pattern pathname : string) : bool :=
  String.eqb (lower_string (drop_trailing_slashes pathname))
             (lower_string (drop_trailing_slashes pattern)).

(** The [<Routes>] table of [App] on any pathname. *)
Definition matched_route (auth : Value) (pathname : string) : option Element :=
  if matches "/login" pathname then Some (Render LoginView)
  else if matches "/dashboard" pathname then
    Some (ProtectedRoute auth (Render DashboardView))
  else if matches "/" pathname then Some (Navigate "/dashboard")
  else None.

(** Following [<Navigate>] elements from any pathname; the result is the
    location reached and the view rendered there. *)
Fixpoint follow (fuel : nat) (auth : Value) (pathname : string)
  : option (string * View) :=
  match matched_route auth pathname with
  | None => None
  | Some (Render v) => Some (pathname, v)
  | Some (Navigate to) =>
      match fuel with
      | O => None
      | S fuel' => follow fuel' auth to
      end
  end.

End Router.

(** ** Dashboard component *)

Module Dashboard.

(** *** Data held in React state *)

Record Sentiment : Type := mkSentiment {
  label : string;
  score : Js.number
}.

Record AnalysisResults : Type := mkAnalysis {
  priority_score : Js.number;
  sentiment : Sentiment;
  summary : string;
  suggested_actions : list string
}.

Record Email : Type := mkEmail {
  email_id : string;
  subject : string;
  sender : string;
  category : string;
  analysis_results : AnalysisResults
}.

(** [avg_response_time] is [null] ([None]) or a number. *)
Record Metrics : Type := mkMetrics {
  total_emails : Z;
  categories : gmap string Z;
  sentiment_distribution : gmap string Z;
  priority_distribution : gmap string Z;
  avg_response_time : option Js.number
}.

(** The three [useState] cells of the component. *)
Record State : Type := mkState {
  emails : list Email;
  metrics : Metrics;
  loading : bool
}.

(** Initial values passed to [useState]. *)
Definition initial_metrics : Metrics :=
  {| total_emails := 0;
     categories := ∅;
     sentiment_distribution := ∅;
     priority_distribution := ∅;
     avg_response_time := None |}.

Definition initial_state : State :=
  {| emails := []; metrics := initial_metrics; loading := true |}.

(** The setters returned by [useState]: each replaces its own cell. *)
Definition setEmails (es : list Email) (st : State) : State :=
  {| emails := es; metrics := metrics st; loading := loading st |}.

Definition setMetrics (m : Metrics) (st : State) : State :=
  {| emails := emails st; metrics := m; loading := loading st |}.

Definition setLoading (b : bool) (st : State) : State :=
  {| emails := emails st; metrics := metrics st; loading := b |}.

(** *** The mount effect and its literals *)

Definition mock_email_1 : Email :=
  {| email_id := "1";
     subject := "Project Update Meeting";
     sender := "john@example.com";
     category := "Work";
     analysis_results :=
       {| priority_score := Js.lit_0_8;
          sentiment := {| label := "positive"; score := Js.lit_0_9 |};
          summary := "Weekly project status update discussion";
          suggested_actions := ["Schedule meeting"; "Prepare report"] |} |}.

Definition mock_email_2 : Email :=
  {| email_id := "2";
     subject := "Invoice Payment Due";
     sender := "billing@company.com";
     category := "Finance";
     analysis_results :=
       {| priority_score := Js.lit_0_9;
          sentiment := {| label := "neutral"; score := Js.lit_0_5 |};
          summary := "Payment reminder for recent services";
          suggested_actions := ["Review invoice"; "Process payment"] |} |}.

Definition mock_emails : list Email := [mock_email_1; mock_email_2].

Definition mock_metrics : Metrics :=
  {| total_emails := 245;
     categories := <["Work" := 45%Z]> (<["Finance" := 28%Z]> (<["Personal" := 32%Z]> ∅));
     sentiment_distribution :=
       <["positive" := 120%Z]> (<["neutral" := 85%Z]> (<["negative" := 40%Z]> ∅));
     priority_distribution :=
       <["high" := 58%Z]> (<["medium" := 142%Z]> (<["low" := 45%Z]> ∅));
     avg_response_time := Some Js.lit_2_5 |}.

(** The body of [useEffect(() => { ... }, [])]: three setter calls, run
    once after the first render. *)
Definition mount_effect (st : State) : State :=
  setLoading false (setMetrics mock_metrics (setEmails mock_emails st)).

(** Sum of the counts of a distribution object. *)
Definition sum_counts (d : gmap string Z) : Z :=
  map_fold (λ _ n acc, (n + acc)%Z) 0%Z d.

(** *** Rendering *)

(** A [<span>] badge: its [className] and its text. *)
Record Badge : Type := mkBadge {
  badge_class : string;
  badge_text : string
}.

(** One [<li>] of the email list. *)
Record EmailItem : Type := mkItem {
  item_key : string;
  item_subject : string;
  item_priority : Badge;
  item_from : string;
  item_category : Badge;
  item_summary : string;
  item_actions : list (nat * string)
}.

(** [priority_score > 0.7 ? ... : ...], used for both the class and the
    text of the priority badge. *)
Definition priority_badge (e : Email) : Badge :=
  {| badge_class :=
       "ml-2 px-2 inline-flex text-xs leading-5 font-semibold rounded-full "
       +:+ (if Js.gt (priority_score (analysis_results e)) Js.lit_0_7
            then "bg-red-100 text-red-800" else "bg-green-100 text-green-800");
     badge_text :=
       if Js.gt (priority_score (analysis_results e)) Js.lit_0_7
       then "High Priority" else "Normal" |}.

Definition category_badge (e : Email) : Badge :=
  {| badge_class :=
       "px-3 py-1 text-xs rounded-full "
       +:+ (if String.eqb (category e) "Work"
            then "bg-blue-100 text-blue-800" else "bg-purple-100 text-purple-800");
     badge_text := category e |}.

(** The callback of [emails.map((email) => <li key={email.email_id}> ...)];
    the inner [suggested_actions.map((action, index) => ...)] keys each
    chip by its index. *)
Definition render_email (e : Email) : EmailItem :=
  {| item_key := email_id e;
     item_subject := subject e;
     item_priority := priority_badge e;
     item_from := "From: " +:+ sender e;
     item_category := category_badge e;
     item_summary := summary (analysis_results e);
     item_actions := imap (λ index action, (index, action))
                          (suggested_actions (analysis_results e)) |}.

(** The four metric cards.  A missing [high] or [positive] property and a
    [null] average render as nothing ([None]). *)
Record MetricsCards : Type := mkCards {
  card_total_emails : Z;
  card_avg_response_time : option Js.number;
  card_high_priority : option Z;
  card_positive_sentiment : option Z
}.

Definition render_cards (m : Metrics) : MetricsCards :=
  {| card_total_emails := total_emails m;
     card_avg_response_time := avg_response_time m;
     card_high_priority := priority_distribution m !! "high";
     card_positive_sentiment := sentiment_distribution m !! "positive" |}.

(** What the component returns: a function of the React state alone. *)
Record Tree : Type := mkTree {
  tree_cards : MetricsCards;
  tree_emails : list EmailItem
}.

Definition render (st : State) : Tree :=
  {| tree_cards := render_cards (metrics st);
     tree_emails := render_email <$> emails st |}.

(** *** The page in the browser *)

(** The search [<input>] has no [value] and no [onChange]: its text is
    kept by the browser.  The Filter [<button>] has no [onClick] and
    nothing to keep. *)
Record Dom : Type := mkDom {
  search_value : string
}.

Record Ui : Type := mkUi {
  react : State;
  browser : Dom
}.

Inductive Event : Type :=
| Mounted                       (* the effect of the first render runs *)
| SearchInput (text : string)   (* the user edits the search box *)
| FilterClick.                  (* the user presses Filter *)

Definition step (u : Ui) (ev : Event) : Ui :=
  match ev with
  | Mounted => {| react := mount_effect (react u); browser := browser u |}
  | SearchInput text => {| react := react u; browser := {| search_value := text |} |}
  | FilterClick => u
  end.

Definition run (u : Ui) (evs : list Event) : Ui := foldl step u evs.

Definition start : Ui :=
  {| react := initial_state; browser := {| search_value := "" |} |}.

(** What the user sees: the rendered tree and the text in the search box. *)
Record Screen : Type := mkScreen {
  screen_cards : MetricsCards;
  screen_search : string;
  screen_emails : list EmailItem
}.

Definition screen (u : Ui) : Screen :=
  {| screen_cards := tree_cards (render (react u));
     screen_search := search_value (browser u);
     screen_emails := tree_emails (render (react u)) |}.

(** The records behind the rendered list: the [<ul>] maps over [emails]
    itself, whatever the search box holds. *)
Definition listed (u : Ui) : list Email := emails (react u).

(** The three fields of a record that the aggregate metrics of the
    specification are about. *)
Definition feed_fields (e : Email) : Js.number * string * string :=
  (priority_score (analysis_results e), label (sentiment (analysis_results e)),
   category e).

(** An event of the user (as opposed to React running the effect). *)
Definition user_event (ev : Event) : bool :=
  match ev with
  | Mounted => false
  | SearchInput _ | FilterClick => true
  end.

End Dashboard.

(** ** Reading a URL *)

Module Url.

(** How often a character occurs in a string; used to count the
    separators of a query string. *)
Fixpoint count_char (c : Ascii.ascii) (s : string) : nat :=
  match s with
  | EmptyString => 0
  | String a s' => (if Ascii.eqb a c then 1 else 0) + count_char c s'
  end.

(** The character [&] (code 38), which separates query parameters. *)
Definition ampersand : Ascii.ascii := Eval cbv in Ascii.ascii_of_nat 38.

End Url.

(** ** Concrete inputs used in examples *)

Module Samples.

Import AuthContext App Dashboard.

(** A session last marked authenticated whose token ran out at time 1000. *)
Definition stale_session : SessionState :=
  {| status := authenticated;
     accessToken := Some "eyJ0eXAi";
     expiresAt := Some 1000%Z |}.

(** A session that expired and was reset. *)
Definition reset_session : SessionState :=
  {| status := anonymous; accessToken := None; expiresAt := Some 1000%Z |}.

(** A complete OAuth configuration. *)
Definition sample_env : gmap string string :=
  <["REACT_APP_TENANT_ID" := "contoso"]>
  (<["REACT_APP_CLIENT_ID" := "11111111-2222"]>
  (<["REACT_APP_REDIRECT_URI" := "http://localhost:3000/auth/callback"]> ∅)).

Definition blank_window : Window := {| location_href := "about:blank" |}.

(** The page once the mount effect has run. *)
Definition mounted : Ui := step start Mounted.

(** The same page with a query typed into the search box. *)
Definition mounted_searching : Ui := step mounted (SearchInput "invoice").

(** A record scored exactly at the threshold, and one without a score. *)
Definition email_at_threshold : Email :=
  {| email_id := "3"; subject := "Newsletter"; sender := "news@example.com";
     category := "Personal";
     analysis_results :=
       {| priority_score := Js.lit_0_7;
          sentiment := {| label := "neutral"; score := Js.lit_0_5 |};
          summary := "Monthly digest";
          suggested_actions := [] |} |}.

Definition email_nan_score : Email :=
  {| email_id := "4"; subject := "Broken"; sender := "bot@example.com";
     category := "Work";
     analysis_results :=
       {| priority_score := S754_nan;
          sentiment := {| label := "negative"; score := Js.lit_0_5 |};
          summary := "";
          suggested_actions := ["Retry"] |} |}.

(** A visitor who is not authenticated, and one who is. *)
Definition visitor : Value := {| isAuthenticated := false |}.

Definition member : Value := {| isAuthenticated := true |}.

(** The first record of the effect with another score above the
    threshold and another sentiment. *)
Definition mock_email_1_rescored : Email :=
  {| email_id := "1";
     subject := "Project Update Meeting";
     sender := "john@example.com";
     category := "Work";
     analysis_results :=
       {| priority_score := Js.lit_0_9;
          sentiment := {| label := "negative"; score := Js.lit_0_5 |};
          summary := "Weekly project status update discussion";
          suggested_actions := ["Schedule meeting"; "Prepare report"] |} |}.

(** The first record filed under a lower-case category. *)
Definition mock_email_1_lowercase : Email :=
  {| email_id := "1";
     subject := "Project Update Meeting";
     sender := "john@example.com";
     category := "work";
     analysis_results := analysis_results mock_email_1 |}.

(** A snapshot that agrees with the literal of the effect on the four
    values the cards show and on nothing else. *)
Definition mock_metrics_reshuffled : Metrics :=
  {| total_emails := 245;
     categories := ∅;
     sentiment_distribution := <["positive" := 120%Z]> (<["neutral" := 7%Z]> ∅);
     priority_distribution := <["high" := 58%Z]> ∅;
     avg_response_time := Some Js.lit_2_5 |}.

(** A page in some other state, with text in the search box. *)
Definition cluttered : Ui :=
  {| react := {| emails := [email_at_threshold; email_nan_score];
                 metrics := initial_metrics;
                 loading := true |};
     browser := {| search_value := "abc" |} |}.

End Samples.

(** ** Route guard *)

Import AuthContext App Dashboard Samples.

Lemma canAccess_flag (s : SessionState) :
  canAccess s = isAuthenticated (useAuth s).
Proof. unfold canAccess, ProtectedRoute. by destruct (isAuthenticated _). Qed.

Lemma canAccess_status (s : SessionState) :
  canAccess s = bool_decide (status s = authenticated).
Proof. by rewrite canAccess_flag. Qed.

(** C1.  The route guard admits the dashboard exactly for an authenticated
    session: [canAccess] is true iff the status is [authenticated], false
    iff it is [anonymous] or [pending]; when it is false the guard yields
    the redirect to [/login], and navigation to [/dashboard] ends on the
    dashboard in the first case and on the login view in the second. *)
Theorem canAccess_iff_authenticated (s : SessionState) :
  (canAccess s = true ↔ status s = authenticated)
  ∧ (canAccess s = false ↔ status s = anonymous ∨ status s = pending)
  ∧ (canAccess s = false ↔
       ProtectedRoute (useAuth s) (Render DashboardView) = Navigate "/login")
  ∧ navigate 1 (useAuth s) "/dashboard" =
      (if canAccess s then Some ("/dashboard", DashboardView)
       else Some ("/login", LoginView)).
Proof.
  rewrite canAccess_status. unfold useAuth, ProtectedRoute; simpl.
  destruct (status s) eqn:Hs; simpl; repeat split;
    try tauto; try congruence; try (intros [?|?]; congruence).
Qed.

(** Navigation from the root: one more redirect, same outcome. *)
Lemma navigate_root (s : SessionState) :
  navigate 2 (useAuth s) "/" =
    (if canAccess s then Some ("/dashboard", DashboardView)
     else Some ("/login", LoginView)).
Proof.
  rewrite canAccess_status. unfold useAuth. simpl. unfold ProtectedRoute; simpl.
  by destruct (bool_decide _).
Qed.

(** On the three paths of the table navigation ends in a view within two
    redirects. *)
Lemma navigate_total (auth : Value) (path : string) :
  is_Some (Routes auth path) → is_Some (navigate 2 auth path).
Proof.
  intros H.
  assert (Hp : path = "/login" ∨ path = "/dashboard" ∨ path = "/").
  { unfold Routes in H.
    destruct (String.eqb_spec path "/login"); [auto|].
    destruct (String.eqb_spec path "/dashboard"); [auto|].
    destruct (String.eqb_spec path "/"); [auto|].
    by destruct H. }
  destruct Hp as [-> | [-> | ->]]; simpl; unfold ProtectedRoute;
    destruct (isAuthenticated auth); by eexists.
Qed.

(** More fuel never changes where navigation ends. *)
Lemma navigate_fuel_mono (auth : Value) (n : nat) :
  ∀ path r, navigate n auth path = Some r → navigate (S n) auth path = Some r.
Proof.
  induction n as [|n IH]; intros path r.
  - simpl. destruct (Routes auth path) as [[v|to]|]; congruence.
  - intros H. change (navigate (S (S n)) auth path) with
      (match Routes auth path with
       | None => None
       | Some (Render v) => Some (path, v)
       | Some (Navigate to) => navigate (S n) auth to
       end).
    simpl in H. destruct (Routes auth path) as [[v|to]|]; try congruence.
    by apply IH.
Qed.

(** The guard at a given time, in terms of the session. *)
Lemma canAccessAt_status (now : Z) (s : SessionState) :
  canAccessAt now s = bool_decide (effective_status now s = authenticated).
Proof.
  unfold canAccessAt, ProtectedRoute, useAuthAt; simpl.
  by destruct (bool_decide _).
Qed.

Lemma canAccessAt_iff (now : Z) (s : SessionState) :
  canAccessAt now s = true ↔ status s = authenticated ∧ expired now s = false.
Proof.
  rewrite canAccessAt_status. unfold effective_status.
  destruct (status s), (expired now s); simpl; split;
    try discriminate; try done; intros [? ?]; discriminate.
Qed.

(** Before the expiry time the flag is the one of the session as it
    stands. *)
Lemma useAuthAt_before_expiry (now : Z) (s : SessionState) :
  expired now s = false → useAuthAt now s = useAuth s.
Proof.
  intros H. unfold useAuthAt, useAuth, effective_status. rewrite H.
  by destruct (status s).
Qed.

(** C5.  A session whose [expiresAt] lies in the past is treated as
    anonymous by the guard, also when its status was last set to
    [authenticated]: access is denied, the guard yields the redirect to
    [/login], and navigation to [/dashboard] ends on the login view. *)
Theorem expired_session_is_denied (s : SessionState) (now : Z) :
  expired now s = true →
  canAccessAt now s = false
  ∧ ProtectedRoute (useAuthAt now s) (Render DashboardView) = Navigate "/login"
  ∧ navigate 1 (useAuthAt now s) "/dashboard" = Some ("/login", LoginView).
Proof.
  intros Hexp.
  assert (Hflag : isAuthenticated (useAuthAt now s) = false).
  { unfold useAuthAt, effective_status; simpl. rewrite Hexp.
    by destruct (status s). }
  unfold canAccessAt. simpl. unfold ProtectedRoute. by rewrite Hflag.
Qed.

Lemma expired_session_is_denied_witness :
  status stale_session = authenticated
  ∧ expired 2000 stale_session = true
  ∧ canAccessAt 2000 stale_session = false
  ∧ ProtectedRoute (useAuthAt 2000 stale_session) (Render DashboardView)
    = Navigate "/login"
  ∧ navigate 1 (useAuthAt 2000 stale_session) "/dashboard"
    = Some ("/login", LoginView).
Proof.
  split; [reflexivity|]. split; [reflexivity|].
  apply (expired_session_is_denied stale_session 2000%Z). reflexivity.
Defined.

(** The same session is admitted up to the last moment before
    [expiresAt] and denied from [expiresAt] on; a session that was reset
    is denied at any time. *)
Example access_around_expiry :
  canAccessAt 999 stale_session = true
  ∧ canAccessAt 1000 stale_session = false
  ∧ canAccessAt 0 reset_session = false.
Proof. by repeat split. Qed.

(** ** Login redirect *)

(** C8.  With the three configuration values present, the login handler
    sends the browser to the Microsoft authorize endpoint of the tenant,
    with [client_id], [response_type=code], [redirect_uri] and the scope
    [Mail.Read Mail.ReadWrite User.Read], in this order and spliced in
    verbatim. *)
Theorem login_redirect_url (env : gmap string string) (w : Window)
    (tenant client redirect : string) :
  env !! "REACT_APP_TENANT_ID" = Some tenant →
  env !! "REACT_APP_CLIENT_ID" = Some client →
  env !! "REACT_APP_REDIRECT_URI" = Some redirect →
  location_href (handleMicrosoftLogin env w) =
    "https://login.microsoftonline.com/" +:+ tenant
    +:+ "/oauth2/v2.0/authorize?client_id=" +:+ client
    +:+ "&response_type=code&redirect_uri=" +:+ redirect
    +:+ "&scope=Mail.Read Mail.ReadWrite User.Read".
Proof.
  intros Ht Hc Hr. unfold handleMicrosoftLogin; simpl.
  by rewrite Ht, Hc, Hr.
Qed.

Lemma login_redirect_url_witness :
  sample_env !! "REACT_APP_TENANT_ID" = Some "contoso"
  ∧ sample_env !! "REACT_APP_CLIENT_ID" = Some "11111111-2222"
  ∧ sample_env !! "REACT_APP_REDIRECT_URI" = Some "http://localhost:3000/auth/callback"
  ∧ location_href (handleMicrosoftLogin sample_env blank_window) =
      "https://login.microsoftonline.com/" +:+ "contoso"
      +:+ "/oauth2/v2.0/authorize?client_id=" +:+ "11111111-2222"
      +:+ "&response_type=code&redirect_uri=" +:+ "http://localhost:3000/auth/callback"
      +:+ "&scope=Mail.Read Mail.ReadWrite User.Read".
Proof.
  split; [reflexivity|]. split; [reflexivity|]. split; [reflexivity|].
  apply (login_redirect_url sample_env blank_window); reflexivity.
Defined.

(** The same redirect, written out. *)
Example login_redirect_sample :
  location_href (handleMicrosoftLogin sample_env blank_window) =
    "https://login.microsoftonline.com/contoso/oauth2/v2.0/authorize?client_id=11111111-2222&response_type=code&redirect_uri=http://localhost:3000/auth/callback&scope=Mail.Read Mail.ReadWrite User.Read".
Proof. reflexivity. Qed.

(** A missing value is spliced in as the text [undefined]. *)
Example login_redirect_unconfigured :
  location_href (handleMicrosoftLogin ∅ blank_window) =
    "https://login.microsoftonline.com/undefined/oauth2/v2.0/authorize?client_id=undefined&response_type=code&redirect_uri=undefined&scope=Mail.Read Mail.ReadWrite User.Read".
Proof. reflexivity. Qed.

(** ** JavaScript numbers: what [>] decides *)

Section Binary64.

Local Open Scope Z_scope.

(** Closes [0 < 2 ^ k] for an exponent that [lia] shows non-negative. *)
Ltac pow2_pos := apply Z.pow_pos_nonneg; lia.

Lemma digits2_pos_bounds (m : positive) :
  2 ^ (Z.pos (digits2_pos m) - 1) <= Z.pos m < 2 ^ Z.pos (digits2_pos m).
Proof.
  induction m as [m IH|m IH|]; simpl digits2_pos.
  - rewrite Pos2Z.inj_succ.
    replace (Z.succ (Z.pos (digits2_pos m)) - 1)
      with (Z.succ (Z.pos (digits2_pos m) - 1)) by lia.
    rewrite !Z.pow_succ_r by lia. lia.
  - rewrite Pos2Z.inj_succ.
    replace (Z.succ (Z.pos (digits2_pos m)) - 1)
      with (Z.succ (Z.pos (digits2_pos m) - 1)) by lia.
    rewrite !Z.pow_succ_r by lia. lia.
  - simpl. lia.
Qed.

(** A canonical finite binary64: exponent range, at most 53 bits of
    mantissa, and exactly 53 unless the exponent is the smallest one. *)
Lemma binary64_finite_shape (s : bool) (m : positive) (e : Z) :
  Js.is_binary64 (S754_finite s m e) = true →
  -1074 <= e <= 971 ∧ Z.pos m < 2 ^ 53 ∧ (e ≠ -1074 → 2 ^ 52 <= Z.pos m).
Proof.
  unfold Js.is_binary64, valid_binary, bounded, canonical_mantissa, fexp, emin.
  intros H. apply andb_prop in H as [Hc He].
  apply Z.eqb_eq in Hc. apply Z.leb_le in He.
  pose proof (digits2_pos_bounds m) as [Hlo Hhi].
  set (d := Z.pos (digits2_pos m)) in *.
  assert (Hd : 0 < d) by (unfold d; lia).
  change (IntDef.Z.max (d + e - 53) (3 - 1024 - 53))
    with (Z.max (d + e - 53) (-1074)) in Hc.
  assert (Hd53 : d <= 53) by lia.
  repeat split; try lia.
  - eapply Z.lt_le_trans; [exact Hhi|]. apply Z.pow_le_mono_r; lia.
  - intros Hne. assert (d = 53) as Hd' by lia. rewrite Hd' in Hlo. exact Hlo.
Qed.

Lemma pow2_split (a b : Z) : 0 <= a → 0 <= b → 2 ^ (a + b) = 2 ^ a * 2 ^ b.
Proof. intros. apply Z.pow_add_r; lia. Qed.

(** A smaller exponent loses against a full 53-bit mantissa. *)
Lemma scaled_lt_exp (m1 m2 : positive) (e1 e2 : Z) :
  -1074 <= e1 → e1 < e2 →
  Z.pos m1 < 2 ^ 53 → 2 ^ 52 <= Z.pos m2 →
  Z.pos m1 * 2 ^ (e1 + 1074) < Z.pos m2 * 2 ^ (e2 + 1074).
Proof.
  intros He1 He H1 H2.
  replace (e2 + 1074) with ((e2 - e1) + (e1 + 1074)) by lia.
  rewrite (pow2_split (e2 - e1) (e1 + 1074)) by lia.
  assert (HQ : 0 < 2 ^ (e1 + 1074)) by pow2_pos.
  assert (HR : 2 ^ 1 <= 2 ^ (e2 - e1)) by (apply Z.pow_le_mono_r; lia).
  change (2 ^ 1) with 2 in HR.
  change (2 ^ 53) with 9007199254740992 in H1.
  change (2 ^ 52) with 4503599627370496 in H2.
  rewrite Z.mul_assoc. apply Z.mul_lt_mono_pos_r; [exact HQ|].
  set (R := 2 ^ (e2 - e1)) in *. clearbody R. nia.
Qed.

(** On finite binary64 values [SFltb] is the order of the values. *)
Lemma SFltb_scaled (x y : Js.number) :
  Js.is_binary64 x = true → Js.is_binary64 y = true →
  Js.is_finite x = true → Js.is_finite y = true →
  (SFltb x y = true ↔ Js.scaled x < Js.scaled y).
Proof.
  intros Vx Vy Fx Fy.
  destruct x as [sx|sx| |sx mx ex]; try discriminate Fx;
  destruct y as [sy|sy| |sy my ey]; try discriminate Fy.
  - unfold SFltb; simpl. split; [discriminate|lia].
  - apply binary64_finite_shape in Vy as (He & _ & _).
    assert (0 < Z.pos my * 2 ^ (ey + 1074))
      by (apply Z.mul_pos_pos; [lia|pow2_pos]).
    unfold SFltb, Js.scaled, SFcompare.
    destruct sy; (split; [try discriminate; intros _|try reflexivity]); lia.
  - apply binary64_finite_shape in Vx as (He & _ & _).
    assert (0 < Z.pos mx * 2 ^ (ex + 1074))
      by (apply Z.mul_pos_pos; [lia|pow2_pos]).
    unfold SFltb, Js.scaled, SFcompare.
    destruct sx; (split; [try discriminate; intros _|try reflexivity]); lia.
  - apply binary64_finite_shape in Vx as (Hex & Hhx & Hlx).
    apply binary64_finite_shape in Vy as (Hey & Hhy & Hly).
    assert (Px : 0 < 2 ^ (ex + 1074)) by pow2_pos.
    assert (Py : 0 < 2 ^ (ey + 1074)) by pow2_pos.
    assert (Qx : 0 < Z.pos mx * 2 ^ (ex + 1074)) by (apply Z.mul_pos_pos; lia).
    assert (Qy : 0 < Z.pos my * 2 ^ (ey + 1074)) by (apply Z.mul_pos_pos; lia).
    unfold SFltb, Js.scaled, SFcompare.
    destruct sx, sy.
    + destruct (Z.compare_spec ex ey) as [Heq|Hlt|Hgt].
      * subst ey.
        change (PosDef.Pos.compare_cont Eq mx my) with (Pos.compare mx my).
        assert (Hm : Z.pos my * 2 ^ (ex + 1074) < Z.pos mx * 2 ^ (ex + 1074)
                     ↔ Z.pos my < Z.pos mx)
          by (symmetry; apply Z.mul_lt_mono_pos_r; exact Px).
        destruct (Pos.compare_spec mx my) as [E|L|G]; cbn [CompOpp];
          (split; [try discriminate; intros _|try reflexivity; intros H]); lia.
      * pose proof (scaled_lt_exp mx my ex ey ltac:(lia) Hlt Hhx
                      ltac:(apply Hly; lia)).
        split; [discriminate|lia].
      * pose proof (scaled_lt_exp my mx ey ex ltac:(lia) Hgt Hhy
                      ltac:(apply Hlx; lia)).
        split; [intros _; lia|reflexivity].
    + split; [intros _; lia|reflexivity].
    + split; [discriminate|lia].
    + destruct (Z.compare_spec ex ey) as [Heq|Hlt|Hgt].
      * subst ey.
        change (PosDef.Pos.compare_cont Eq mx my) with (Pos.compare mx my).
        assert (Hm : Z.pos mx * 2 ^ (ex + 1074) < Z.pos my * 2 ^ (ex + 1074)
                     ↔ Z.pos mx < Z.pos my)
          by (symmetry; apply Z.mul_lt_mono_pos_r; exact Px).
        destruct (Pos.compare_spec mx my) as [E|L|G]; cbn [CompOpp];
          (split; [try discriminate; intros _|try reflexivity; intros H]); lia.
      * pose proof (scaled_lt_exp mx my ex ey ltac:(lia) Hlt Hhx
                      ltac:(apply Hly; lia)).
        split; [intros _; lia|reflexivity].
      * pose proof (scaled_lt_exp my mx ey ex ltac:(lia) Hgt Hhy
                      ltac:(apply Hlx; lia)).
        split; [discriminate|lia].
Qed.

(** [x > 0.7] on a finite number compares values; the right-hand side is
    the double nearest to 0.7. *)
Lemma gt_0_7_value (x : Js.number) :
  Js.is_binary64 x = true → Js.is_finite x = true →
  (Js.gt x Js.lit_0_7 = true ↔ Js.scaled Js.lit_0_7 < Js.scaled x).
Proof.
  intros Vx Fx. unfold Js.gt. by apply SFltb_scaled.
Qed.

(** No binary64 lies between the double 0.7 and the fraction 7/10: being
    above the one is being above the other. *)
Lemma above_0_7_exact (x : Js.number) :
  Js.is_binary64 x = true → Js.is_finite x = true →
  (Js.scaled Js.lit_0_7 < Js.scaled x ↔ 7 * Js.scaled_one < 10 * Js.scaled x).
Proof.
  intros V F.
  assert (HP : 0 < 2 ^ 1021) by pow2_pos.
  assert (H1 : Js.scaled_one = 9007199254740992 * 2 ^ 1021).
  { unfold Js.scaled_one. change 1074 with (53 + 1021).
    rewrite Z.pow_add_r by lia. reflexivity. }
  assert (H7 : Js.scaled Js.lit_0_7 = 6305039478318694 * 2 ^ 1021).
  { unfold Js.scaled, Js.lit_0_7. change (-53 + 1074) with 1021.
    rewrite Z.mul_1_l; reflexivity. }
  rewrite H1, H7. clear H1 H7.
  destruct x as [s|s| |s m e]; try discriminate F.
  - set (P := 2 ^ 1021) in *. clearbody P. unfold Js.scaled. lia.
  - apply binary64_finite_shape in V as (He & Hhi & Hlo).
    change (2 ^ 53) with 9007199254740992 in Hhi. clear Hlo.
    assert (HT : 0 < 2 ^ (e + 1074)) by pow2_pos.
    unfold Js.scaled. destruct s.
    + assert (0 < Z.pos m * 2 ^ (e + 1074)) by (apply Z.mul_pos_pos; lia).
      set (P := 2 ^ 1021) in *. clearbody P. lia.
    + rewrite Z.mul_1_l.
      destruct (Z.le_gt_cases (-53) e) as [Hge|Hlt].
      * (* a multiple of the spacing around 0.7 *)
        replace (e + 1074) with ((e + 53) + 1021) by lia.
        rewrite Z.pow_add_r by lia.
        assert (HQ : 0 < 2 ^ (e + 53)) by pow2_pos.
        set (P := 2 ^ 1021) in *. set (Q := 2 ^ (e + 53)) in *.
        clearbody P Q. clear HT.
        rewrite !Z.mul_assoc.
        rewrite <- !(Z.mul_lt_mono_pos_r P) by exact HP.
        lia.
      * (* below one half *)
        assert (HR : 2 ^ 1 <= 2 ^ (-53 - e)) by (apply Z.pow_le_mono_r; lia).
        change (2 ^ 1) with 2 in HR.
        replace 1021 with ((-53 - e) + (e + 1074)) by lia.
        rewrite Z.pow_add_r by lia.
        set (T := 2 ^ (e + 1074)) in *. set (R := 2 ^ (-53 - e)) in *.
        clearbody T R. clear HP.
        rewrite !Z.mul_assoc.
        rewrite <- !(Z.mul_lt_mono_pos_r T) by exact HT.
        lia.
Qed.

(** [x > 0.7] holds exactly when the value of [x] exceeds 7/10. *)
Lemma gt_0_7_exact (x : Js.number) :
  Js.is_binary64 x = true → Js.is_finite x = true →
  (Js.gt x Js.lit_0_7 = true ↔ 7 * Js.scaled_one < 10 * Js.scaled x).
Proof.
  intros V F. rewrite (gt_0_7_value x V F). by apply above_0_7_exact.
Qed.

(** The literals are canonical binary64 values; [lit_0_7], [lit_0_8] and
    [lit_0_9] lie within half a unit in the last place of 7/10, 8/10 and
    9/10, and [lit_0_5], [lit_2_5] are 1/2 and 5/2 exactly. *)
Example literals_are_binary64 :
  Forall (λ x, Js.is_binary64 x = true)
         [Js.lit_0_7; Js.lit_0_8; Js.lit_0_9; Js.lit_0_5; Js.lit_2_5].
Proof. repeat constructor. Qed.

Example literals_are_nearest :
  2 * Z.abs (10 * 6305039478318694 - 7 * 2 ^ 53) < 10
  ∧ 2 * Z.abs (10 * 7205759403792794 - 8 * 2 ^ 53) < 10
  ∧ 2 * Z.abs (10 * 8106479329266893 - 9 * 2 ^ 53) < 10
  ∧ Js.lit_0_5 = S754_finite false (2 ^ 52) (-53)
  ∧ Js.lit_2_5 = S754_finite false (5 * 2 ^ 50) (-51).
Proof. by vm_compute. Qed.

(** Outside the finite numbers: only [+Infinity] exceeds 0.7. *)
Lemma gt_0_7_special :
  Js.gt (S754_infinity false) Js.lit_0_7 = true
  ∧ Js.gt (S754_infinity true) Js.lit_0_7 = false
  ∧ Js.gt S754_nan Js.lit_0_7 = false.
Proof. by repeat split. Qed.

End Binary64.

(** ** Priority badge *)

Lemma priority_badge_cases (e : Email) :
  priority_badge e =
    (if Js.gt (priority_score (analysis_results e)) Js.lit_0_7
     then {| badge_class :=
               "ml-2 px-2 inline-flex text-xs leading-5 font-semibold rounded-full bg-red-100 text-red-800";
             badge_text := "High Priority" |}
     else {| badge_class :=
               "ml-2 px-2 inline-flex text-xs leading-5 font-semibold rounded-full bg-green-100 text-green-800";
             badge_text := "Normal" |}).
Proof. unfold priority_badge. by destruct (Js.gt _ _). Qed.

(** C2.  The priority badge of a rendered record reads "High Priority"
    exactly when the record's priority score is strictly greater than 0.7,
    and "Normal" exactly when it is not; the badge's colour follows the
    same test and nothing else of the record enters. *)
Theorem high_priority_badge_iff (e : Email) :
  (badge_text (item_priority (render_email e)) = "High Priority"
     ↔ Js.gt (priority_score (analysis_results e)) Js.lit_0_7 = true)
  ∧ (badge_text (item_priority (render_email e)) = "Normal"
     ↔ Js.gt (priority_score (analysis_results e)) Js.lit_0_7 = false)
  ∧ (badge_class (item_priority (render_email e))
       = "ml-2 px-2 inline-flex text-xs leading-5 font-semibold rounded-full bg-red-100 text-red-800"
     ↔ badge_text (item_priority (render_email e)) = "High Priority").
Proof.
  change (item_priority (render_email e)) with (priority_badge e).
  rewrite priority_badge_cases.
  destruct (Js.gt _ _); simpl; repeat split; intros; congruence.
Qed.

(** In terms of values: a record with a finite score is badged
    "High Priority" exactly when the score exceeds 7/10. *)
Lemma high_priority_badge_value (e : Email) :
  Js.is_binary64 (priority_score (analysis_results e)) = true →
  Js.is_finite (priority_score (analysis_results e)) = true →
  (badge_text (item_priority (render_email e)) = "High Priority"
     ↔ (7 * Js.scaled_one < 10 * Js.scaled (priority_score (analysis_results e)))%Z).
Proof.
  intros V F. rewrite <- (gt_0_7_exact _ V F).
  change (item_priority (render_email e)) with (priority_badge e).
  rewrite priority_badge_cases.
  destruct (Js.gt _ _); simpl; split; intros; congruence.
Qed.

(** Every badge on screen follows the rule. *)
Lemma screen_badges (u : Ui) :
  (λ i, badge_text (item_priority i)) <$> screen_emails (screen u)
  = (λ e, if Js.gt (priority_score (analysis_results e)) Js.lit_0_7
          then "High Priority" else "Normal") <$> emails (react u).
Proof.
  unfold screen, render; simpl. rewrite <- list_fmap_compose.
  by apply list_fmap_ext.
Qed.

(** The comparison is strict, and a NaN score is not high. *)
Example badges_of_samples :
  badge_text (priority_badge mock_email_1) = "High Priority"
  ∧ badge_text (priority_badge mock_email_2) = "High Priority"
  ∧ badge_text (priority_badge email_at_threshold) = "Normal"
  ∧ badge_text (priority_badge email_nan_score) = "Normal".
Proof. by repeat split. Qed.

(** ** Dashboard state under events *)

Lemma mount_effect_fixed (st : State) :
  mount_effect st =
    {| emails := mock_emails; metrics := mock_metrics; loading := false |}.
Proof. reflexivity. Qed.

Lemma run_cons (u : Ui) (ev : Event) (evs : list Event) :
  run u (ev :: evs) = run (step u ev) evs.
Proof. reflexivity. Qed.

Lemma run_snoc (u : Ui) (evs : list Event) (ev : Event) :
  run u (evs ++ [ev]) = step (run u evs) ev.
Proof. unfold run. by rewrite foldl_app. Qed.

(** Typing in the search box or pressing Filter never reaches React. *)
Lemma step_user_react (u : Ui) (ev : Event) :
  user_event ev = true → react (step u ev) = react u.
Proof. by destruct ev. Qed.

Lemma run_user_react (evs : list Event) :
  ∀ u, forallb user_event evs = true → react (run u evs) = react u.
Proof.
  induction evs as [|ev evs IH]; intros u H; [done|].
  simpl in H. apply andb_prop in H as [Hev Hevs].
  rewrite run_cons, IH by done. by apply step_user_react.
Qed.

(** Every event leaves the [metrics] cell alone or overwrites it with the
    literal of the effect. *)
Lemma step_metrics (u : Ui) (ev : Event) :
  metrics (react (step u ev)) = metrics (react u)
  ∨ metrics (react (step u ev)) = mock_metrics.
Proof. destruct ev; simpl; auto. Qed.

(** Once the effect has run, the React state is pinned. *)
Lemma run_after_mount (evs : list Event) :
  ∀ u, react u = mount_effect (react u) → react (run u evs) = react u.
Proof.
  induction evs as [|ev evs IH]; intros u Hu; [done|].
  rewrite run_cons.
  assert (Hstep : react (step u ev) = react u).
  { destruct ev; simpl; congruence. }
  rewrite IH; [done|]. by rewrite Hstep.
Qed.

Lemma run_mounted (evs : list Event) :
  react (run mounted evs) =
    {| emails := mock_emails; metrics := mock_metrics; loading := false |}.
Proof. by rewrite run_after_mount. Qed.

(** The program holds two snapshots in all: the initial one and the
    literal of the effect. *)
Lemma reachable_metrics (evs : list Event) :
  metrics (react (run start evs)) = initial_metrics
  ∨ metrics (react (run start evs)) = mock_metrics.
Proof.
  induction evs as [|ev evs IH] using rev_ind; [by left|].
  rewrite run_snoc.
  destruct (step_metrics (run start evs) ev) as [-> | ->]; auto.
Qed.

(** ** Metrics *)

(** C3, amended.  In every snapshot the program holds (the [metrics] cell
    after any sequence of events from the initial page) the sentiment
    counts and the priority counts each add up to [total_emails], and the
    category counts add up to at most [total_emails]. *)
Theorem reachable_distribution_sums (evs : list Event) :
  sum_counts (sentiment_distribution (metrics (react (run start evs))))
    = total_emails (metrics (react (run start evs)))
  ∧ sum_counts (priority_distribution (metrics (react (run start evs))))
    = total_emails (metrics (react (run start evs)))
  ∧ (sum_counts (categories (metrics (react (run start evs))))
     ≤ total_emails (metrics (react (run start evs))))%Z.
Proof.
  destruct (reachable_metrics evs) as [-> | ->]; by vm_compute.
Qed.

(** C3 fails at the snapshot the effect installs: the sentiment and
    priority counts add up to [total_emails] (245), the category counts
    to 105. *)
Lemma mounted_category_counts_fall_short :
  total_emails (metrics (react mounted)) = 245%Z
  ∧ sum_counts (categories (metrics (react mounted))) = 105%Z
  ∧ sum_counts (sentiment_distribution (metrics (react mounted))) = 245%Z
  ∧ sum_counts (priority_distribution (metrics (react mounted))) = 245%Z
  ∧ sum_counts (categories (metrics (react mounted)))
    ≠ total_emails (metrics (react mounted)).
Proof. by vm_compute. Qed.

(** Before the effect runs the cards show the initial snapshot. *)
Example initial_cards :
  screen_cards (screen start) =
    {| card_total_emails := 0;
       card_avg_response_time := None;
       card_high_priority := None;
       card_positive_sentiment := None |}.
Proof. reflexivity. Qed.

(** The initial snapshot satisfies all three sums. *)
Example initial_metrics_sums :
  sum_counts (categories initial_metrics) = total_emails initial_metrics
  ∧ sum_counts (sentiment_distribution initial_metrics) = total_emails initial_metrics
  ∧ sum_counts (priority_distribution initial_metrics) = total_emails initial_metrics.
Proof. by vm_compute. Qed.

(** C4 fails on the component: with exactly the two records of the
    scenario in the store, the metrics shown are not the counts of those
    records. *)
Lemma mounted_metrics_are_not_counts :
  feed_fields <$> listed mounted =
    [(Js.lit_0_8, "positive", "Work"); (Js.lit_0_9, "neutral", "Finance")]
  ∧ card_total_emails (screen_cards (screen mounted)) = 245%Z
  ∧ ¬ (total_emails (metrics (react mounted)) = 2%Z
       ∧ categories (metrics (react mounted))
         = <["Work" := 1%Z]> (<["Finance" := 1%Z]> ∅)
       ∧ sentiment_distribution (metrics (react mounted))
         = <["positive" := 1%Z]> (<["neutral" := 1%Z]> ∅)
       ∧ priority_distribution (metrics (react mounted))
         = <["high" := 2%Z]> ∅).
Proof.
  split; [reflexivity|]. split; [reflexivity|].
  intros [H _]. discriminate H.
Qed.

(** C4, amended.  Once the effect has delivered the two records, and
    whatever happens afterwards, the store holds exactly those records,
    the metrics are the literal snapshot of the effect, and both records
    are badged "High Priority" (both scores exceed 0.7). *)
Theorem mounted_scenario (evs : list Event) :
  feed_fields <$> listed (run mounted evs) =
    [(Js.lit_0_8, "positive", "Work"); (Js.lit_0_9, "neutral", "Finance")]
  ∧ total_emails (metrics (react (run mounted evs))) = 245%Z
  ∧ categories (metrics (react (run mounted evs)))
    = <["Work" := 45%Z]> (<["Finance" := 28%Z]> (<["Personal" := 32%Z]> ∅))
  ∧ sentiment_distribution (metrics (react (run mounted evs)))
    = <["positive" := 120%Z]> (<["neutral" := 85%Z]> (<["negative" := 40%Z]> ∅))
  ∧ priority_distribution (metrics (react (run mounted evs)))
    = <["high" := 58%Z]> (<["medium" := 142%Z]> (<["low" := 45%Z]> ∅))
  ∧ (λ i, badge_text (item_priority i)) <$> screen_emails (screen (run mounted evs))
    = ["High Priority"; "High Priority"]
  ∧ Forall (λ e, Js.gt (priority_score (analysis_results e)) Js.lit_0_7 = true)
           (listed (run mounted evs)).
Proof.
  unfold listed, screen. simpl. rewrite run_mounted. simpl.
  repeat split; try reflexivity.
  repeat constructor.
Qed.

(** C9.  The effect installs one literal snapshot (total 245, categories
    Work 45 / Finance 28 / Personal 32, sentiment 120 / 85 / 40,
    priority 58 / 142 / 45, average response time 2.5), whatever the state
    before; replacing the email collection by any other one leaves the
    [metrics] cell and the four metric cards as they were; and no later
    event changes the snapshot. *)
Theorem metrics_fixed_at_mount (st : State) (es : list Email) (evs : list Event) :
  metrics (mount_effect st) =
    {| total_emails := 245;
       categories := <["Work" := 45%Z]> (<["Finance" := 28%Z]> (<["Personal" := 32%Z]> ∅));
       sentiment_distribution :=
         <["positive" := 120%Z]> (<["neutral" := 85%Z]> (<["negative" := 40%Z]> ∅));
       priority_distribution :=
         <["high" := 58%Z]> (<["medium" := 142%Z]> (<["low" := 45%Z]> ∅));
       avg_response_time := Some Js.lit_2_5 |}
  ∧ metrics (setEmails es st) = metrics st
  ∧ tree_cards (render (setEmails es st)) = tree_cards (render st)
  ∧ tree_cards (render (setEmails es (mount_effect st)))
    = {| card_total_emails := 245;
         card_avg_response_time := Some Js.lit_2_5;
         card_high_priority := Some 58%Z;
         card_positive_sentiment := Some 120%Z |}
  ∧ metrics (react (run mounted evs)) = metrics (mount_effect st).
Proof.
  repeat split; try reflexivity.
  by rewrite run_mounted.
Qed.

(** ** Email list, search box and filter button *)

(** The list on screen is the image of the listed records. *)
Lemma screen_emails_listed (u : Ui) :
  screen_emails (screen u) = render_email <$> listed u.
Proof. reflexivity. Qed.

(** The [key] of each [<li>] is the id of its record. *)
Lemma item_keys (es : list Email) :
  item_key <$> (render_email <$> es) = email_id <$> es.
Proof. rewrite <- list_fmap_compose. by apply list_fmap_ext. Qed.

(** Typing shows up in the search box and nowhere else. *)
Lemma search_input_screen (u : Ui) (query : string) :
  screen (step u (SearchInput query)) =
    {| screen_cards := screen_cards (screen u);
       screen_search := query;
       screen_emails := screen_emails (screen u) |}.
Proof. reflexivity. Qed.

(** Pressing Filter shows up nowhere. *)
Lemma filter_click_screen (u : Ui) : screen (step u FilterClick) = screen u.
Proof. reflexivity. Qed.

Lemma run_user_listed (u : Ui) (evs : list Event) :
  forallb user_event evs = true → listed (run u evs) = listed u.
Proof. intros H. unfold listed. by rewrite run_user_react. Qed.

(** Subsequences carry over to the ids. *)
Lemma sublist_ids (l k : list Email) :
  l `sublist_of` k → (email_id <$> l) `sublist_of` (email_id <$> k).
Proof.
  induction 1 as [|e l k _ IH|e l k _ IH]; simpl.
  - constructor.
  - by constructor.
  - by constructor.
Qed.

(** C6.  With the search box empty (the Filter button holds no
    selection at all) the records listed are exactly the records of the
    store, in store order, and the list on screen is their rendering, one
    [<li>] per record, keyed by the record's id. *)
Theorem empty_search_lists_store (u : Ui) :
  search_value (browser u) = "" →
  listed u = emails (react u)
  ∧ screen_emails (screen u) = render_email <$> emails (react u)
  ∧ item_key <$> screen_emails (screen u) = email_id <$> emails (react u)
  ∧ length (screen_emails (screen u)) = length (emails (react u)).
Proof.
  intros _. split; [reflexivity|]. split; [reflexivity|]. split.
  - rewrite screen_emails_listed. apply item_keys.
  - rewrite screen_emails_listed. apply length_fmap.
Qed.

Lemma empty_search_lists_store_witness :
  search_value (browser mounted) = ""
  ∧ listed mounted = emails (react mounted)
  ∧ screen_emails (screen mounted) = render_email <$> emails (react mounted)
  ∧ item_key <$> screen_emails (screen mounted) = email_id <$> emails (react mounted)
  ∧ length (screen_emails (screen mounted)) = length (emails (react mounted)).
Proof.
  split; [reflexivity|]. apply (empty_search_lists_store mounted). reflexivity.
Defined.

(** C7.  Whatever the user types into the search box and however often
    Filter is pressed, the records listed form a subsequence of the store:
    same order, every listed record is a record of the store, and ids that
    are distinct in the store stay distinct in the list. *)
Theorem listed_is_subsequence (u : Ui) (evs : list Event) :
  forallb user_event evs = true →
  listed (run u evs) `sublist_of` emails (react u)
  ∧ (email_id <$> listed (run u evs)) `sublist_of` (email_id <$> emails (react u))
  ∧ (∀ e, e ∈ listed (run u evs) → e ∈ emails (react u))
  ∧ (NoDup (email_id <$> emails (react u)) →
     NoDup (email_id <$> listed (run u evs)))
  ∧ (length (listed (run u evs)) ≤ length (emails (react u)))%nat.
Proof.
  intros Hevs.
  assert (Hsub : listed (run u evs) `sublist_of` emails (react u)).
  { rewrite run_user_listed by done. reflexivity. }
  split; [exact Hsub|]. split; [by apply sublist_ids|]. split; [|split].
  - intros e He. by eapply sublist_subseteq.
  - intros Hnd. eapply sublist_NoDup; [exact Hnd|]. by apply sublist_ids.
  - by apply sublist_length.
Qed.

Lemma listed_is_subsequence_witness :
  forallb user_event [SearchInput "invoice"; FilterClick; SearchInput "INVOICE x"]
    = true
  ∧ listed (run mounted [SearchInput "invoice"; FilterClick; SearchInput "INVOICE x"])
    `sublist_of` emails (react mounted)
  ∧ (email_id <$> listed (run mounted [SearchInput "invoice"; FilterClick;
                                       SearchInput "INVOICE x"]))
      `sublist_of` (email_id <$> emails (react mounted))
  ∧ (∀ e, e ∈ listed (run mounted [SearchInput "invoice"; FilterClick;
                                   SearchInput "INVOICE x"]) →
          e ∈ emails (react mounted))
  ∧ (NoDup (email_id <$> emails (react mounted)) →
     NoDup (email_id <$> listed (run mounted [SearchInput "invoice"; FilterClick;
                                              SearchInput "INVOICE x"])))
  ∧ (length (listed (run mounted [SearchInput "invoice"; FilterClick;
                                  SearchInput "INVOICE x"]))
     ≤ length (emails (react mounted)))%nat.
Proof.
  split; [reflexivity|].
  apply (listed_is_subsequence mounted
           [SearchInput "invoice"; FilterClick; SearchInput "INVOICE x"]).
  reflexivity.
Defined.

(** C10.  Two pages with the same [emails] state show the same email
    list, namely the rendering of the whole store in store order,
    whatever their search boxes hold. *)
Theorem email_list_ignores_search_box (u1 u2 : Ui) :
  emails (react u1) = emails (react u2) →
  screen_emails (screen u1) = screen_emails (screen u2)
  ∧ screen_emails (screen u1) = render_email <$> emails (react u1)
  ∧ listed u1 = listed u2.
Proof.
  intros H. unfold screen, listed; simpl. by rewrite H.
Qed.

Lemma email_list_ignores_search_box_witness :
  emails (react mounted) = emails (react mounted_searching)
  ∧ screen_search (screen mounted) ≠ screen_search (screen mounted_searching)
  ∧ screen_emails (screen mounted) = screen_emails (screen mounted_searching)
  ∧ screen_emails (screen mounted) = render_email <$> emails (react mounted)
  ∧ listed mounted = listed mounted_searching.
Proof.
  split; [reflexivity|]. split; [discriminate|].
  apply (email_list_ignores_search_box mounted mounted_searching). reflexivity.
Defined.

(** The two pages of the example do differ in their search boxes, and
    the query "invoice" still leaves both records on screen. *)
Example searching_invoice_lists_both :
  screen_search (screen mounted) = ""
  ∧ screen_search (screen mounted_searching) = "invoice"
  ∧ item_subject <$> screen_emails (screen mounted_searching)
    = ["Project Update Meeting"; "Invoice Payment Due"].
Proof. by repeat split. Qed.

(** Along any run of user events the list on screen stays what it was. *)
Lemma user_events_keep_list (u : Ui) (evs : list Event) :
  forallb user_event evs = true →
  screen_emails (screen (run u evs)) = screen_emails (screen u)
  ∧ screen_cards (screen (run u evs)) = screen_cards (screen u).
Proof.
  intros H. unfold screen; simpl. by rewrite run_user_react.
Qed.

(** * Further properties of the components *)

(** ** Routing *)

Lemma navigate_login (n : nat) (auth : Value) :
  navigate n auth "/login" = Some ("/login", LoginView).
Proof. by destruct n. Qed.

Lemma navigate_dashboard (n : nat) (auth : Value) :
  navigate (S n) auth "/dashboard" =
    Some (if isAuthenticated auth then ("/dashboard", DashboardView)
          else ("/login", LoginView)).
Proof.
  simpl. unfold ProtectedRoute. destruct (isAuthenticated auth); [done|].
  apply navigate_login.
Qed.

(** The paths of the route table. *)
Lemma Routes_paths (auth : Value) (path : string) (el : Element) :
  Routes auth path = Some el →
  path = "/login" ∨ path = "/dashboard" ∨ path = "/".
Proof.
  unfold Routes.
  destruct (String.eqb_spec path "/login"); [auto|].
  destruct (String.eqb_spec path "/dashboard"); [auto|].
  destruct (String.eqb_spec path "/"); [auto|]. discriminate.
Qed.

(** *** Any pathname *)

Lemma follow_unfold (fuel : nat) (auth : Value) (pathname : string) :
  Router.follow fuel auth pathname =
    match Router.matched_route auth pathname with
    | None => None
    | Some (Render v) => Some (pathname, v)
    | Some (Navigate to) =>
        match fuel with
        | O => None
        | S fuel' => Router.follow fuel' auth to
        end
    end.
Proof. by destruct fuel. Qed.

Lemma follow_login (n : nat) (auth : Value) :
  Router.follow n auth "/login" = Some ("/login", LoginView).
Proof. by destruct n. Qed.

Lemma follow_dashboard (n : nat) (auth : Value) :
  Router.follow (S n) auth "/dashboard" =
    Some (if isAuthenticated auth then ("/dashboard", DashboardView)
          else ("/login", LoginView)).
Proof.
  rewrite follow_unfold. change (Router.matched_route auth "/dashboard")
    with (Some (ProtectedRoute auth (Render DashboardView))).
  unfold ProtectedRoute. destruct (isAuthenticated auth); [done|].
  apply follow_login.
Qed.

(** The three cases of the table on a pathname. *)
Lemma matched_route_cases (auth : Value) (pathname : string) :
  (Router.matches "/login" pathname = true
   ∧ Router.matched_route auth pathname = Some (Render LoginView))
  ∨ (Router.matches "/dashboard" pathname = true
     ∧ Router.matched_route auth pathname
       = Some (ProtectedRoute auth (Render DashboardView)))
  ∨ (Router.matches "/" pathname = true
     ∧ Router.matched_route auth pathname = Some (Navigate "/dashboard"))
  ∨ (Router.matches "/login" pathname = false
     ∧ Router.matches "/dashboard" pathname = false
     ∧ Router.matches "/" pathname = false
     ∧ Router.matched_route auth pathname = None).
Proof.
  unfold Router.matched_route.
  destruct (Router.matches "/login" pathname); [by left|].
  destruct (Router.matches "/dashboard" pathname); [by right; left|].
  destruct (Router.matches "/" pathname); [by right; right; left|].
  by right; right; right.
Qed.

(** On the paths as the source spells them the router's matching gives
    the table read literally. *)
Lemma follow_exact (fuel : nat) (auth : Value) (path : string) :
  is_Some (Routes auth path) →
  Router.follow fuel auth path = navigate fuel auth path.
Proof.
  intros [el Hel]. destruct (Routes_paths _ _ _ Hel) as [-> | [-> | ->]].
  - by rewrite follow_login, navigate_login.
  - destruct fuel as [|n]; [reflexivity|].
    by rewrite follow_dashboard, navigate_dashboard.
  - destruct fuel as [|[|n]]; [reflexivity|reflexivity|].
    change (Router.follow (S (S n)) auth "/")
      with (Router.follow (S n) auth "/dashboard").
    change (navigate (S (S n)) auth "/") with (navigate (S n) auth "/dashboard").
    by rewrite follow_dashboard, navigate_dashboard.
Qed.

(** X1.  A visitor whose [isAuthenticated] flag is false never gets the
    dashboard: from whatever pathname, however it is spelled, and with
    whatever number of redirects, a navigation that ends at all ends on
    the login view, at a location the router matches to [/login]. *)
Theorem unauthenticated_ends_on_login (fuel : nat) (auth : Value)
    (pathname : string) (r : string * View) :
  isAuthenticated auth = false →
  Router.follow fuel auth pathname = Some r →
  snd r = LoginView ∧ Router.matches "/login" (fst r) = true.
Proof.
  intros Hauth. revert pathname.
  induction fuel as [|fuel IH]; intros pathname H; rewrite follow_unfold in H;
    destruct (matched_route_cases auth pathname)
      as [[Hm HR] | [[Hm HR] | [[Hm HR] | (_ & _ & _ & HR)]]];
    rewrite HR in H; unfold ProtectedRoute in H; rewrite ?Hauth in H;
    try discriminate H.
  - injection H as <-. by split.
  - injection H as <-. by split.
  - rewrite follow_login in H. injection H as <-. by split.
  - by apply (IH "/dashboard").
Qed.

Lemma unauthenticated_ends_on_login_witness :
  isAuthenticated visitor = false
  ∧ Router.follow 2 visitor "/Dashboard//" = Some ("/login", LoginView)
  ∧ snd ("/login", LoginView) = LoginView
  ∧ Router.matches "/login" (fst ("/login", LoginView)) = true.
Proof.
  split; [reflexivity|]. split; [reflexivity|].
  apply (unauthenticated_ends_on_login 2 visitor "/Dashboard//"); reflexivity.
Defined.

(** X2.  The route table has no redirect loop: on every pathname two
    redirects are enough and a larger budget gives the same answer; a
    navigation ends on a view exactly when the router matches the
    pathname to one of the three routes. *)
Theorem navigation_settles (auth : Value) (pathname : string) (n : nat) :
  Router.follow (2 + n) auth pathname = Router.follow 2 auth pathname
  ∧ (is_Some (Router.follow 2 auth pathname)
     ↔ Router.matches "/login" pathname = true
       ∨ Router.matches "/dashboard" pathname = true
       ∨ Router.matches "/" pathname = true).
Proof.
  change (2 + n) with (S (S n)).
  rewrite !(follow_unfold _ auth pathname).
  destruct (matched_route_cases auth pathname)
    as [[Hm HR] | [[Hm HR] | [[Hm HR] | (H1 & H2 & H3 & HR)]]]; rewrite HR.
  - split; [done|]. split; [auto|by eauto].
  - unfold ProtectedRoute. destruct (isAuthenticated auth).
    + split; [done|]. split; [auto|by eauto].
    + rewrite !follow_login. split; [done|]. split; [auto|by eauto].
  - rewrite !follow_dashboard. split; [done|]. split; [auto|by eauto].
  - split; [done|]. split.
    + intros [? ?]; discriminate.
    + intros [H | [H | H]]; congruence.
Qed.

(** Other spellings of the three paths reach the same views. *)
Example other_spellings :
  Router.follow 0 visitor "/LOGIN" = Some ("/LOGIN", LoginView)
  ∧ Router.follow 0 member "/dashboard/" = Some ("/dashboard/", DashboardView)
  ∧ Router.follow 1 visitor "/dashboard/" = Some ("/login", LoginView)
  ∧ Router.follow 2 member "//" = Some ("/dashboard", DashboardView)
  ∧ Router.follow 2 member "/dash" = None
  ∧ Router.follow 2 member "/login/x" = None.
Proof. by repeat split. Qed.

(** X3.  The root path leads where [/dashboard] leads, one redirect
    later: to the dashboard for an authenticated visitor and to the login
    view otherwise; [/login] itself is shown to everyone, without a
    redirect, authenticated or not. *)
Theorem root_follows_dashboard (auth : Value) (n : nat) :
  navigate (S n) auth "/" = navigate n auth "/dashboard"
  ∧ navigate (S (S n)) auth "/" =
      Some (if isAuthenticated auth then ("/dashboard", DashboardView)
            else ("/login", LoginView))
  ∧ navigate 0 auth "/login" = Some ("/login", LoginView).
Proof.
  split; [reflexivity|]. split; [|reflexivity].
  change (navigate (S (S n)) auth "/") with (navigate (S n) auth "/dashboard").
  apply navigate_dashboard.
Qed.

(** ** Login redirect with odd configurations *)

Lemma count_char_app (c : Ascii.ascii) (s t : string) :
  Url.count_char c (s +:+ t) = Url.count_char c s + Url.count_char c t.
Proof.
  induction s as [|a s IH]; simpl; [done|]. rewrite IH. lia.
Qed.

(** X4.  Without configuration the handler raises nothing: each missing
    value is spliced in as the text [undefined], and the browser is sent
    to the tenant called "undefined". *)
Theorem login_redirect_unconfigured_env (env : gmap string string) (w : Window) :
  env !! "REACT_APP_TENANT_ID" = None →
  env !! "REACT_APP_CLIENT_ID" = None →
  env !! "REACT_APP_REDIRECT_URI" = None →
  location_href (handleMicrosoftLogin env w) =
    "https://login.microsoftonline.com/undefined/oauth2/v2.0/authorize?client_id=undefined&response_type=code&redirect_uri=undefined&scope=Mail.Read Mail.ReadWrite User.Read".
Proof.
  intros Ht Hc Hr. unfold handleMicrosoftLogin; simpl.
  by rewrite Ht, Hc, Hr.
Qed.

Lemma login_redirect_unconfigured_env_witness :
  (∅ : gmap string string) !! "REACT_APP_TENANT_ID" = None
  ∧ location_href (handleMicrosoftLogin ∅ blank_window) =
    "https://login.microsoftonline.com/undefined/oauth2/v2.0/authorize?client_id=undefined&response_type=code&redirect_uri=undefined&scope=Mail.Read Mail.ReadWrite User.Read".
Proof.
  split; [reflexivity|].
  apply (login_redirect_unconfigured_env ∅ blank_window); reflexivity.
Defined.

(** X5.  The configuration values enter the URL character for
    character, nothing is percent-encoded: the URL has the three [&], the
    one [?] and the two spaces of the template plus those of the values.
    A value that holds an [&] therefore adds a query parameter. *)
Theorem login_redirect_splices_verbatim (env : gmap string string) (w : Window)
    (tenant client redirect : string) (c : Ascii.ascii) :
  env !! "REACT_APP_TENANT_ID" = Some tenant →
  env !! "REACT_APP_CLIENT_ID" = Some client →
  env !! "REACT_APP_REDIRECT_URI" = Some redirect →
  Url.count_char c (location_href (handleMicrosoftLogin env w)) =
    Url.count_char c
      "https://login.microsoftonline.com//oauth2/v2.0/authorize?client_id=&response_type=code&redirect_uri=&scope=Mail.Read Mail.ReadWrite User.Read"
    + Url.count_char c tenant + Url.count_char c client
    + Url.count_char c redirect
  ∧ Url.count_char Url.ampersand (location_href (handleMicrosoftLogin env w)) =
      3 + Url.count_char Url.ampersand tenant + Url.count_char Url.ampersand client
      + Url.count_char Url.ampersand redirect.
Proof.
  intros Ht Hc Hr.
  assert (Hurl : location_href (handleMicrosoftLogin env w) =
    "https://login.microsoftonline.com/" +:+ (tenant
    +:+ ("/oauth2/v2.0/authorize?client_id=" +:+ (client
    +:+ ("&response_type=code&redirect_uri=" +:+ (redirect
    +:+ "&scope=Mail.Read Mail.ReadWrite User.Read")))))).
  { unfold handleMicrosoftLogin; simpl. by rewrite Ht, Hc, Hr. }
  assert (Hall : ∀ ch, Url.count_char ch (location_href (handleMicrosoftLogin env w)) =
    Url.count_char ch "https://login.microsoftonline.com/"
    + (Url.count_char ch tenant
    + (Url.count_char ch "/oauth2/v2.0/authorize?client_id="
    + (Url.count_char ch client
    + (Url.count_char ch "&response_type=code&redirect_uri="
    + (Url.count_char ch redirect
    + Url.count_char ch "&scope=Mail.Read Mail.ReadWrite User.Read")))))).
  { intros ch. rewrite Hurl. by rewrite !count_char_app. }
  split.
  - rewrite Hall.
    change "https://login.microsoftonline.com//oauth2/v2.0/authorize?client_id=&response_type=code&redirect_uri=&scope=Mail.Read Mail.ReadWrite User.Read"
      with ("https://login.microsoftonline.com/"
            +:+ ("/oauth2/v2.0/authorize?client_id="
            +:+ ("&response_type=code&redirect_uri="
            +:+ "&scope=Mail.Read Mail.ReadWrite User.Read"))).
    rewrite !count_char_app. lia.
  - rewrite Hall.
    change (Url.count_char Url.ampersand "https://login.microsoftonline.com/") with 0.
    change (Url.count_char Url.ampersand "/oauth2/v2.0/authorize?client_id=") with 0.
    change (Url.count_char Url.ampersand "&response_type=code&redirect_uri=") with 2.
    change (Url.count_char Url.ampersand "&scope=Mail.Read Mail.ReadWrite User.Read") with 1.
    lia.
Qed.

Lemma login_redirect_splices_verbatim_witness :
  <["REACT_APP_REDIRECT_URI" := "http://a/cb?x=1&scope=all"]> sample_env
    !! "REACT_APP_REDIRECT_URI" = Some "http://a/cb?x=1&scope=all"
  ∧ Url.count_char Url.ampersand
      (location_href (handleMicrosoftLogin
         (<["REACT_APP_REDIRECT_URI" := "http://a/cb?x=1&scope=all"]> sample_env)
         blank_window)) = 4.
Proof.
  split; [reflexivity|].
  apply (login_redirect_splices_verbatim
           (<["REACT_APP_REDIRECT_URI" := "http://a/cb?x=1&scope=all"]> sample_env)
           blank_window "contoso" "11111111-2222" "http://a/cb?x=1&scope=all" Url.ampersand);
    reflexivity.
Defined.

(** ** Email list items *)

(** X6.  The suggested-action chips of a record are keyed by position:
    the keys are 0, 1, ..., one per action and all distinct, and the chips
    show the actions in their order, none dropped or added. *)
Theorem action_chips_keyed_by_position (e : Email) :
  fst <$> item_actions (render_email e)
    = seq 0 (length (suggested_actions (analysis_results e)))
  ∧ snd <$> item_actions (render_email e)
    = suggested_actions (analysis_results e)
  ∧ NoDup (fst <$> item_actions (render_email e))
  ∧ (∀ i action, item_actions (render_email e) !! i = Some (i, action)
                 ↔ suggested_actions (analysis_results e) !! i = Some action).
Proof.
  simpl. set (acts := suggested_actions (analysis_results e)).
  assert (Hfst : fst <$> imap (λ index action, (index, action)) acts
                 = seq 0 (length acts)).
  { rewrite fmap_imap.
    rewrite (imap_ext _ (λ j _, j)) by done.
    rewrite imap_seq_0. apply list_fmap_id. }
  split; [exact Hfst|]. split; [|split].
  - rewrite fmap_imap. rewrite (imap_ext _ (const id)) by done.
    rewrite imap_const. apply list_fmap_id.
  - rewrite Hfst. apply NoDup_seq.
  - intros i action. rewrite list_lookup_imap.
    destruct (acts !! i) as [a|]; simpl; split; congruence.
Qed.

(** X7.  The category badge is blue exactly for the category spelled
    [Work] (the comparison is by identity of the strings, so [work] is
    not); every other category, the empty one included, is purple; the
    badge always shows the category itself. *)
Theorem category_badge_colour (e : Email) :
  (badge_class (item_category (render_email e))
     = "px-3 py-1 text-xs rounded-full bg-blue-100 text-blue-800"
   ↔ category e = "Work")
  ∧ (badge_class (item_category (render_email e))
       = "px-3 py-1 text-xs rounded-full bg-purple-100 text-purple-800"
     ↔ category e ≠ "Work")
  ∧ badge_text (item_category (render_email e)) = category e.
Proof.
  simpl. destruct (String.eqb_spec (category e) "Work") as [Heq|Hne]; simpl;
    repeat split; intros; try done; try congruence.
Qed.

Example category_badge_is_case_sensitive :
  badge_class (item_category (render_email mock_email_1))
    = "px-3 py-1 text-xs rounded-full bg-blue-100 text-blue-800"
  ∧ badge_class (item_category (render_email mock_email_1_lowercase))
    = "px-3 py-1 text-xs rounded-full bg-purple-100 text-purple-800".
Proof. by split. Qed.

(** X8.  What a list item shows of its record: the id, subject, sender,
    category, summary and actions, and of the priority score only on
    which side of 0.7 it lies.  Records that agree on these render to
    the same item; sentiment is never shown. *)
Theorem list_item_depends_on (e1 e2 : Email) :
  email_id e1 = email_id e2 →
  subject e1 = subject e2 →
  sender e1 = sender e2 →
  category e1 = category e2 →
  summary (analysis_results e1) = summary (analysis_results e2) →
  suggested_actions (analysis_results e1) = suggested_actions (analysis_results e2) →
  Js.gt (priority_score (analysis_results e1)) Js.lit_0_7
    = Js.gt (priority_score (analysis_results e2)) Js.lit_0_7 →
  render_email e1 = render_email e2.
Proof.
  intros Hid Hsub Hsnd Hcat Hsum Hact Hgt.
  unfold render_email, priority_badge, category_badge.
  by rewrite Hid, Hsub, Hsnd, Hcat, Hsum, Hact, Hgt.
Qed.

Lemma list_item_depends_on_witness :
  sentiment (analysis_results mock_email_1)
    ≠ sentiment (analysis_results mock_email_1_rescored)
  ∧ priority_score (analysis_results mock_email_1)
    ≠ priority_score (analysis_results mock_email_1_rescored)
  ∧ render_email mock_email_1 = render_email mock_email_1_rescored.
Proof.
  split; [discriminate|]. split; [discriminate|].
  apply (list_item_depends_on mock_email_1 mock_email_1_rescored); reflexivity.
Defined.

(** ** Priority badge and the order of scores *)

(** X9.  Scores that are not positive numbers are never high: a NaN, a
    zero, a negative score and [-Infinity] all give "Normal";
    [+Infinity] gives "High Priority". *)
Theorem badge_of_unusual_scores (e : Email) :
  match priority_score (analysis_results e) with
  | S754_nan | S754_zero _ | S754_infinity true | S754_finite true _ _ =>
      badge_text (item_priority (render_email e)) = "Normal"
  | S754_infinity false =>
      badge_text (item_priority (render_email e)) = "High Priority"
  | S754_finite false _ _ => True
  end.
Proof.
  simpl. destruct (priority_score (analysis_results e)) as [s|s| |s m x];
    try destruct s; done.
Qed.

(** X10.  The badge is monotone in the score: among finite scores, a
    record scored at least as high as a record badged "High Priority" is
    badged "High Priority" too. *)
Theorem higher_score_stays_high (e1 e2 : Email) :
  Js.is_binary64 (priority_score (analysis_results e1)) = true →
  Js.is_finite (priority_score (analysis_results e1)) = true →
  Js.is_binary64 (priority_score (analysis_results e2)) = true →
  Js.is_finite (priority_score (analysis_results e2)) = true →
  (Js.scaled (priority_score (analysis_results e1))
   ≤ Js.scaled (priority_score (analysis_results e2)))%Z →
  badge_text (item_priority (render_email e1)) = "High Priority" →
  badge_text (item_priority (render_email e2)) = "High Priority".
Proof.
  intros V1 F1 V2 F2 Hle.
  change (item_priority (render_email e1)) with (priority_badge e1).
  change (item_priority (render_email e2)) with (priority_badge e2).
  rewrite !priority_badge_cases.
  destruct (Js.gt (priority_score (analysis_results e1)) Js.lit_0_7) eqn:G1;
    [intros _|discriminate].
  apply (gt_0_7_value _ V1 F1) in G1.
  assert (G2 : Js.gt (priority_score (analysis_results e2)) Js.lit_0_7 = true).
  { apply (gt_0_7_value _ V2 F2). lia. }
  by rewrite G2.
Qed.

Lemma scaled_0_8_le_0_9 : (Js.scaled Js.lit_0_8 ≤ Js.scaled Js.lit_0_9)%Z.
Proof.
  unfold Js.scaled, Js.lit_0_8, Js.lit_0_9.
  apply Z.mul_le_mono_nonneg_r; [apply Z.pow_nonneg; lia|lia].
Qed.

Lemma higher_score_stays_high_witness :
  (Js.scaled (priority_score (analysis_results mock_email_1))
   ≤ Js.scaled (priority_score (analysis_results mock_email_2)))%Z
  ∧ badge_text (item_priority (render_email mock_email_1)) = "High Priority"
  ∧ badge_text (item_priority (render_email mock_email_2)) = "High Priority".
Proof.
  split; [exact scaled_0_8_le_0_9|]. split; [reflexivity|].
  apply (higher_score_stays_high mock_email_1 mock_email_2);
    try reflexivity. exact scaled_0_8_le_0_9.
Defined.

(** Witness of [high_priority_badge_value]: the first record of the effect
    has a finite score, is badged "High Priority", and its score exceeds
    7/10. *)
Lemma high_priority_badge_value_witness :
  Js.is_binary64 (priority_score (analysis_results mock_email_1)) = true
  ∧ Js.is_finite (priority_score (analysis_results mock_email_1)) = true
  ∧ (badge_text (item_priority (render_email mock_email_1)) = "High Priority"
     ↔ (7 * Js.scaled_one
        < 10 * Js.scaled (priority_score (analysis_results mock_email_1)))%Z).
Proof.
  split; [reflexivity|]. split; [reflexivity|].
  apply (high_priority_badge_value mock_email_1); reflexivity.
Defined.

(** X11.  What the component returns for the list: one [<li>] element
    per record of the store, the element at each position being the
    rendering of the record at that position, with keys that are
    pairwise distinct exactly when the ids of the records are.  The
    component neither deduplicates nor checks the ids; this is about the
    elements it returns. *)
Theorem returned_items_keys_distinct_iff (st : State) :
  length (tree_emails (render st)) = length (emails st)
  ∧ (NoDup (item_key <$> tree_emails (render st))
     ↔ NoDup (email_id <$> emails st))
  ∧ (∀ i e, emails st !! i = Some e →
            tree_emails (render st) !! i = Some (render_email e)).
Proof.
  unfold render; simpl. split; [apply length_fmap|].
  split; [by rewrite item_keys|].
  intros i e H. by rewrite list_lookup_fmap, H.
Qed.

(** ** Metric cards *)

(** X12.  The cards read four values of the snapshot and nothing else:
    the total, the average response time, the [high] priority count and
    the [positive] sentiment count.  Snapshots that agree on these show
    the same cards, whatever their categories and other counts. *)
Theorem cards_depend_on (m1 m2 : Metrics) :
  total_emails m1 = total_emails m2 →
  avg_response_time m1 = avg_response_time m2 →
  priority_distribution m1 !! "high" = priority_distribution m2 !! "high" →
  sentiment_distribution m1 !! "positive" = sentiment_distribution m2 !! "positive" →
  render_cards m1 = render_cards m2.
Proof.
  intros Ht Ha Hh Hp. unfold render_cards. by rewrite Ht, Ha, Hh, Hp.
Qed.

Lemma cards_depend_on_witness :
  categories mock_metrics ≠ categories mock_metrics_reshuffled
  ∧ priority_distribution mock_metrics !! "medium"
    ≠ priority_distribution mock_metrics_reshuffled !! "medium"
  ∧ render_cards mock_metrics = render_cards mock_metrics_reshuffled.
Proof.
  split.
  { intros H. apply (f_equal (λ m : gmap string Z, m !! "Work")) in H.
    discriminate H. }
  split; [discriminate|].
  apply (cards_depend_on mock_metrics mock_metrics_reshuffled); reflexivity.
Defined.

(** ** The mount effect among other events *)

(** X13.  The effect overwrites whatever the state held: once it has run
    anywhere in a sequence of events (and however often), the store holds
    the two records of the effect, the metrics are its literal snapshot
    and [loading] is false, from any starting page. *)
Theorem mounted_somewhere_pins_state (u : Ui) (evs : list Event) :
  Mounted ∈ evs →
  react (run u evs) =
    {| emails := mock_emails; metrics := mock_metrics; loading := false |}.
Proof.
  induction evs as [|ev evs IH] using rev_ind; intros Hin.
  - by apply elem_of_nil in Hin.
  - rewrite run_snoc. destruct ev.
    + apply mount_effect_fixed.
    + simpl. apply IH. apply elem_of_app in Hin as [Hin|Hin]; [done|].
      apply list_elem_of_singleton in Hin. discriminate Hin.
    + simpl. apply IH. apply elem_of_app in Hin as [Hin|Hin]; [done|].
      apply list_elem_of_singleton in Hin. discriminate Hin.
Qed.

Lemma mounted_somewhere_pins_state_witness :
  Mounted ∈ [SearchInput "abc"; Mounted; FilterClick; Mounted; SearchInput ""]
  ∧ react (run cluttered
             [SearchInput "abc"; Mounted; FilterClick; Mounted; SearchInput ""]) =
    {| emails := mock_emails; metrics := mock_metrics; loading := false |}.
Proof.
  split; [apply list_elem_of_further, list_elem_of_here|].
  apply (mounted_somewhere_pins_state cluttered).
  apply list_elem_of_further, list_elem_of_here.
Defined.

(** X14.  Until the effect has run the page is empty, whatever the user
    does: after any typing and Filter presses on the initial page the
    list has no item, the cards show total 0 and no other value, and
    [loading] is still true (nothing on the page shows it). *)
Theorem before_mount_page_is_empty (evs : list Event) :
  forallb user_event evs = true →
  screen_emails (screen (run start evs)) = []
  ∧ screen_cards (screen (run start evs)) =
      {| card_total_emails := 0;
         card_avg_response_time := None;
         card_high_priority := None;
         card_positive_sentiment := None |}
  ∧ loading (react (run start evs)) = true.
Proof.
  intros H. unfold screen; simpl. by rewrite run_user_react.
Qed.

Lemma before_mount_page_is_empty_witness :
  forallb user_event [SearchInput "invoice"; FilterClick] = true
  ∧ screen_emails (screen (run start [SearchInput "invoice"; FilterClick])) = []
  ∧ screen_cards (screen (run start [SearchInput "invoice"; FilterClick])) =
      {| card_total_emails := 0;
         card_avg_response_time := None;
         card_high_priority := None;
         card_positive_sentiment := None |}
  ∧ loading (react (run start [SearchInput "invoice"; FilterClick])) = true.
Proof.
  split; [reflexivity|].
  apply (before_mount_page_is_empty [SearchInput "invoice"; FilterClick]).
  reflexivity.
Defined.

(** X15.  The search box shows what was typed last, and typing or
    pressing Filter changes nothing else on the page: after any sequence
    of user events the cards and the list are those of the page before. *)
Theorem typing_changes_only_the_search_box (u : Ui) (evs : list Event)
    (query : string) :
  forallb user_event evs = true →
  screen (run u (evs ++ [SearchInput query])) =
    {| screen_cards := screen_cards (screen u);
       screen_search := query;
       screen_emails := screen_emails (screen u) |}.
Proof.
  intros H. rewrite run_snoc, search_input_screen.
  unfold screen; simpl. by rewrite run_user_react.
Qed.

Lemma typing_changes_only_the_search_box_witness :
  forallb user_event [SearchInput "inv"; FilterClick] = true
  ∧ screen (run mounted ([SearchInput "inv"; FilterClick] ++ [SearchInput "invoice"])) =
    {| screen_cards := screen_cards (screen mounted);
       screen_search := "invoice";
       screen_emails := screen_emails (screen mounted) |}.
Proof.
  split; [reflexivity|].
  apply (typing_changes_only_the_search_box mounted [SearchInput "inv"; FilterClick]).
  reflexivity.
Defined.
